(** * DatabaseCorrector: schema comparison and correction

    A shallow embedding of [database_corrector.py].  The class
    [DatabaseCorrector] compares the tables, columns and indexes of a source
    database with those of a target database ([compare_schemas]) and then
    walks the resulting list of messages, dispatching on their text to the
    routines that change the target ([correct_schema], [add_table],
    [create_table], [add_column], [add_index]).

    The SQLAlchemy objects the code talks to are modelled as the library
    has them.  An inspector lists table names, and it has no attribute
    [get_table]: every [inspector.get_table(...)] raises [AttributeError].
    The constructor builds its engines with [create_engine]; on such an
    engine [async with engine.begin()] raises [TypeError] before a
    connection is made.  [Index(name, columns)], called with the whole
    column collection as one expression, raises [ArgumentError].  The code
    behind these calls is modelled as it is written, whether or not a run
    gets there.  What a database engine does with a statement and how a
    dialect renders a column are parameters ([Backend]). *)

From Stdlib Require Import Ascii.
From stdpp Require Import gmap strings list fin_maps.

(** ** Python strings

    Strings are byte strings holding UTF-8.  The space is a single byte that
    never occurs inside a multi-byte character, and UTF-8 is
    self-synchronising, so [split] and [contains] on bytes agree with
    Python's [str.split(" ")] and [in] on code points. *)

Module Py.

(** [needle in hay]. *)
Fixpoint contains (needle hay : string) : bool :=
  String.prefix needle hay ||
  match hay with
  | EmptyString => false
  | String _ rest => contains needle rest
  end.

(** [s.split(sep)] for a one-character separator: never an empty list, and
    adjacent separators give empty fields. *)
Fixpoint split (sep : ascii) (s : string) : list string :=
  match s with
  | EmptyString => [EmptyString]
  | String c rest =>
      if Ascii.eqb c sep then EmptyString :: split sep rest
      else match split sep rest with
           | [] => [String c EmptyString]
           | field :: fields => String c field :: fields
           end
  end.

(** [sep.join(parts)]. *)
Fixpoint join (sep : string) (parts : list string) : string :=
  match parts with
  | [] => EmptyString
  | [p] => p
  | p :: ps => p +:+ sep +:+ join sep ps
  end.

(** [l[-n:]]. *)
Definition suffix_slice {A} (n : nat) (l : list A) : list A :=
  drop (length l - n) l.

Definition newline : string := String "010"%char EmptyString.

End Py.

(** ** Exceptions and results *)

Inductive exn : Type :=
  | OperationalError
  | AttributeError (attr : string)
  | ArgumentError
  | IndexError
  | ValueError
  | TypeError
  | DatabaseError (msg : string).

Inductive Result (A : Type) : Type :=
  | Ok (a : A)
  | Raise (e : exn).
Arguments Ok {A} a.
Arguments Raise {A} e.

(** ** Schema objects *)

Record Column : Type := mkColumn {
  col_name : string;
  col_type : string;
  col_nullable : bool
}.

Record Index : Type := mkIndex {
  idx_name : string;
  idx_columns : list Column;
  idx_unique : bool
}.

Record Table : Type := mkTable {
  tbl_name : string;
  tbl_columns : list Column;
  tbl_indexes : list Index
}.

(** A database: its tables. *)
Record Database : Type := mkDatabase {
  db_tables : list Table
}.

(** [inspector.get_table_names()]. *)
Definition get_table_names (insp : Database) : list string :=
  map tbl_name (db_tables insp).

(** [inspector.get_table(table_name)]: the inspector has no such attribute,
    so the attribute access raises before anything is called. *)
Definition get_table (insp : Database) (table_name : string)
  : Result (option Table) :=
  Raise (AttributeError "get_table").

(** ** The messages of [compare_schemas] *)

Definition msg_table_added (table_name : string) : string :=
  "Добавлена таблица " +:+ table_name.

Definition msg_table_missing (table_name : string) : string :=
  "Отсутствует таблица " +:+ table_name.

Definition msg_column_missing (table_name column_name : string) : string :=
  "В таблице " +:+ table_name +:+ " отсутствует колонка " +:+ column_name.

Definition msg_index_missing (table_name index_name : string) : string :=
  "В таблице " +:+ table_name +:+ " отсутствует индекс " +:+ index_name.

(** ** The comparison loop (lines 16-47) *)

(** [set(a) | set(b)], in the order the loop visits it.  Python leaves the
    order of a set open; the model fixes the order of [elements]. *)
Definition table_name_union (source_names target_names : list string)
  : list string :=
  elements (list_to_set source_names ∪ list_to_set target_names : gset string).

(** The [for col in source_table.columns] loop. *)
Definition compare_columns (table_name : string) (source_table target_table : Table)
    (differences : list string) : list string :=
  foldl (fun differences col =>
           if bool_decide (col_name col ∈ map col_name (tbl_columns target_table))
           then differences
           else differences ++ [msg_column_missing table_name (col_name col)])
        differences (tbl_columns source_table).

(** The [for idx in source_table.indexes] loop. *)
Definition compare_indexes (table_name : string) (source_table target_table : Table)
    (differences : list string) : list string :=
  foldl (fun differences idx =>
           if bool_decide (idx_name idx ∈ map idx_name (tbl_indexes target_table))
           then differences
           else differences ++ [msg_index_missing table_name (idx_name idx)])
        differences (tbl_indexes source_table).

(** The body of the [try] for one table name. *)
Definition compare_table_try (source_inspector target_inspector : Database)
    (differences : list string) (table_name : string) : Result (list string) :=
  match get_table source_inspector table_name with
  | Raise e => Raise e
  | Ok source_table =>
      match get_table target_inspector table_name with
      | Raise e => Raise e
      | Ok target_table =>
          match source_table, target_table with
          | None, _ => Ok (differences ++ [msg_table_added table_name])
          | Some _, None => Ok (differences ++ [msg_table_missing table_name])
          | Some source_table, Some target_table =>
              Ok (compare_indexes table_name source_table target_table
                    (compare_columns table_name source_table target_table
                       differences))
          end
      end
  end.

(** One iteration: [except OperationalError: continue]; any other exception
    leaves the loop. *)
Definition compare_table (source_inspector target_inspector : Database)
    (differences : list string) (table_name : string) : Result (list string) :=
  match compare_table_try source_inspector target_inspector differences table_name with
  | Raise OperationalError => Ok differences
  | outcome => outcome
  end.

Fixpoint compare_tables (source_inspector target_inspector : Database)
    (table_names : list string) (differences : list string)
  : Result (list string) :=
  match table_names with
  | [] => Ok differences
  | table_name :: rest =>
      match compare_table source_inspector target_inspector differences table_name with
      | Ok differences => compare_tables source_inspector target_inspector rest differences
      | Raise e => Raise e
      end
  end.

(** Lines 16-47, once both inspectors are at hand. *)
Definition compare_inspectors (source_inspector target_inspector : Database)
  : Result (list string) :=
  compare_tables source_inspector target_inspector
    (table_name_union (get_table_names source_inspector)
                      (get_table_names target_inspector))
    [].

(** ** The world the run acts on *)

(** The two connection URLs of [main]. *)
Inductive Url : Type := SourceDb | TargetDb.

(** What is sent over a connection: [conn.execute(text(sql))], or the
    [CREATE] that [new_table.create(sync_conn)] emits for a table object. *)
Inductive Statement : Type :=
  | TextClause (sql : string)
  | CreateTable (new_table : Table).

Inductive WireEvent : Type :=
  | Begin (u : Url)
  | Execute (u : Url) (stmt : Statement)
  | Commit (u : Url)
  | Rollback (u : Url).

Record World : Type := mkWorld {
  source_db : Database;
  target_db : Database;
  stdout : list string;
  wire : list WireEvent
}.

Definition connect (u : Url) (w : World) : Database :=
  match u with
  | SourceDb => source_db w
  | TargetDb => target_db w
  end.

Definition set_db (u : Url) (db : Database) (w : World) : World :=
  match u with
  | SourceDb => mkWorld db (target_db w) (stdout w) (wire w)
  | TargetDb => mkWorld (source_db w) db (stdout w) (wire w)
  end.

Definition emit (line : string) (w : World) : World :=
  mkWorld (source_db w) (target_db w) (stdout w ++ [line]) (wire w).

Definition send (ev : WireEvent) (w : World) : World :=
  mkWorld (source_db w) (target_db w) (stdout w) (wire w ++ [ev]).

(** The database engine behind a connection and the dialect of the target:
    neither is code of the repository. *)
Record Backend : Type := mkBackend {
  run_statement : Statement -> Database -> Result Database;
  compile_column : Column -> string
}.

(** ** A state and exception monad *)

Definition M (A : Type) : Type := World -> Result A * World.

Definition ret {A} (a : A) : M A := fun w => (Ok a, w).

Definition raise {A} (e : exn) : M A := fun w => (Raise e, w).

Definition bind {A B} (m : M A) (k : A -> M B) : M B :=
  fun w =>
    match m w with
    | (Ok a, w') => k a w'
    | (Raise e, w') => (Raise e, w')
    end.

Notation "x <- m ;; k" := (bind m (fun x => k))
  (at level 100, m at next level, right associativity).
Notation "m ;; k" := (bind m (fun _ => k))
  (at level 100, right associativity).

Definition lift {A} (r : Result A) : M A := fun w => (r, w).

Definition print (line : string) : M unit := fun w => (Ok tt, emit line w).

Fixpoint for_each {A} (items : list A) (body : A -> M unit) : M unit :=
  match items with
  | [] => ret tt
  | item :: rest => body item ;; for_each rest body
  end.

(** ** Python values and the instance *)

Inductive PyValue : Type :=
  | VEngine (u : Url)
  | VMetaData.

(** [self.<name>]: a missing attribute raises. *)
Definition getattr (self : gmap string PyValue) (name : string) : M PyValue :=
  match self !! name with
  | Some v => ret v
  | None => raise (AttributeError name)
  end.

(** [inspect(engine)]. *)
Definition inspect (engine : PyValue) : M Database :=
  match engine with
  | VEngine u => fun w => (Ok (connect u w), w)
  | VMetaData => raise TypeError
  end.

(** [l[-1]]. *)
Definition item_last (l : list string) : M string :=
  match last l with
  | Some x => ret x
  | None => raise IndexError
  end.

(** [a, b = l]. *)
Definition unpack2 (l : list string) : M (string * string) :=
  match l with
  | [a; b] => ret (a, b)
  | _ => raise ValueError
  end.

(** [Column(name, type)], with the library's default for what the call
    leaves out. *)
Definition new_Column (name type : string) : Column := mkColumn name type true.

(** [Index(name, *[columns])]: the column collection arrives as one
    expression, which the constructor refuses. *)
Definition new_Index (name : string) (cols : list Column) : Result Index :=
  Raise ArgumentError.

(** A list comprehension whose element expression can raise. *)
Fixpoint comprehension {A B} (f : A -> Result B) (l : list A) : Result (list B) :=
  match l with
  | [] => Ok []
  | x :: rest =>
      match f x with
      | Raise e => Raise e
      | Ok y =>
          match comprehension f rest with
          | Raise e => Raise e
          | Ok ys => Ok (y :: ys)
          end
      end
  end.

(** Lines 9-11. *)
Definition __init__ (source_url target_url : Url) : gmap string PyValue :=
  <["target_engine" := VEngine target_url]>
    (<["source_engine" := VEngine source_url]> ∅).

Definition msg_not_found (table_name : string) : string :=
  "Таблица " +:+ table_name +:+ " не найдена в исходной базе данных".

Section DatabaseCorrector.

Variable backend : Backend.

(** [conn.execute(stmt)] on a connection to [u]. *)
Definition conn_execute (u : Url) (stmt : Statement) : M unit :=
  fun w =>
    let w := send (Execute u stmt) w in
    match run_statement backend stmt (connect u w) with
    | Ok db => (Ok tt, set_db u db w)
    | Raise e => (Raise e, w)
    end.

(** [async with engine.begin() as conn: body].  [engine.begin()] of an
    engine made by [create_engine] gives a plain context manager without
    connecting, and [async with] refuses it: the body is not run. *)
Definition engine_begin {A} (engine : PyValue) (body : Url -> M A) : M A :=
  match engine with
  | VEngine _ => raise TypeError
  | VMetaData => raise (AttributeError "begin")
  end.

(** Lines 13-47. *)
Definition compare_schemas (self : gmap string PyValue) : M (list string) :=
  source_engine <- getattr self "source_engine" ;;
  source_inspector <- inspect source_engine ;;
  target_engine <- getattr self "target_engine" ;;
  target_inspector <- inspect target_engine ;;
  lift (compare_inspectors source_inspector target_inspector).

(** Lines 67-78. *)
Definition add_table (self : gmap string PyValue) (table_name : string) : M unit :=
  source_engine <- getattr self "source_engine" ;;
  inspector <- inspect source_engine ;;
  table <- lift (get_table inspector table_name) ;;
  match table with
  | None => print (msg_not_found table_name)
  | Some table =>
      let columns := map (fun col => new_Column (col_name col) (col_type col))
                         (tbl_columns table) in
      indexes <- lift (comprehension
                         (fun idx => new_Index (idx_name idx) (idx_columns idx))
                         (tbl_indexes table)) ;;
      _metadata <- getattr self "metadata" ;;
      let new_table := mkTable table_name columns indexes in
      target_engine <- getattr self "target_engine" ;;
      engine_begin target_engine
        (fun conn => conn_execute conn (CreateTable new_table)) ;;
      print ("Таблица " +:+ table_name +:+ " добавлена")
  end.

(** Lines 80-91. *)
Definition create_table (self : gmap string PyValue) (table_name : string) : M unit :=
  source_engine <- getattr self "source_engine" ;;
  inspector <- inspect source_engine ;;
  table <- lift (get_table inspector table_name) ;;
  match table with
  | None => print (msg_not_found table_name)
  | Some table =>
      let columns := map (fun col => new_Column (col_name col) (col_type col))
                         (tbl_columns table) in
      indexes <- lift (comprehension
                         (fun idx => new_Index (idx_name idx) (idx_columns idx))
                         (tbl_indexes table)) ;;
      _metadata <- getattr self "metadata" ;;
      let new_table := mkTable table_name columns indexes in
      target_engine <- getattr self "target_engine" ;;
      engine_begin target_engine
        (fun conn => conn_execute conn (CreateTable new_table)) ;;
      print ("Таблица " +:+ table_name +:+ " создана")
  end.

(** The text of lines 106-109. *)
Definition add_column_sql (table_name compiled : string) : string :=
  Py.newline +:+ "                ALTER TABLE " +:+ table_name +:+
  Py.newline +:+ "                ADD COLUMN " +:+ compiled +:+
  Py.newline +:+ "            ".

(** Lines 93-112. *)
Definition add_column (self : gmap string PyValue) (table_name col_name_ : string)
  : M unit :=
  source_engine <- getattr self "source_engine" ;;
  inspector <- inspect source_engine ;;
  table <- lift (get_table inspector table_name) ;;
  match table with
  | None => print (msg_not_found table_name)
  | Some table =>
      match find (fun c => String.eqb (col_name c) col_name_) (tbl_columns table) with
      | None =>
          print ("Колонка " +:+ col_name_ +:+ " не найдена в таблице " +:+ table_name)
      | Some col =>
          target_engine <- getattr self "target_engine" ;;
          engine_begin target_engine
            (fun conn =>
               _dialect_engine <- getattr self "target_engine" ;;
               conn_execute conn
                 (TextClause (add_column_sql table_name (compile_column backend col)))) ;;
          print ("Колонка " +:+ col_name_ +:+ " добавлена в таблицу " +:+ table_name)
      end
  end.

(** The text of lines 127-130. *)
Definition add_index_sql (table_name idx_name_ : string) (idx : Index) : string :=
  Py.newline +:+ "                CREATE INDEX " +:+ idx_name_ +:+
  Py.newline +:+ "                ON " +:+ table_name +:+ " (" +:+
  Py.join ", " (map col_name (idx_columns idx)) +:+ ")" +:+
  Py.newline +:+ "            ".

(** Lines 114-134. *)
Definition add_index (self : gmap string PyValue) (table_name idx_name_ : string)
  : M unit :=
  source_engine <- getattr self "source_engine" ;;
  inspector <- inspect source_engine ;;
  table <- lift (get_table inspector table_name) ;;
  match table with
  | None => print (msg_not_found table_name)
  | Some table =>
      match find (fun i => String.eqb (idx_name i) idx_name_) (tbl_indexes table) with
      | None =>
          print ("Индекс " +:+ idx_name_ +:+ " не найден в таблице " +:+ table_name)
      | Some idx =>
          target_engine <- getattr self "target_engine" ;;
          engine_begin target_engine
            (fun conn =>
               conn_execute conn
                 (TextClause (add_index_sql table_name idx_name_ idx))) ;;
          print ("Индекс " +:+ idx_name_ +:+ " добавлен в таблицу " +:+ table_name)
      end
  end.

(** The body of the loop of lines 51-64. *)
Definition correct_difference (self : gmap string PyValue) (diff : string) : M unit :=
  print ("Корректируем: " +:+ diff) ;;
  if Py.contains "Добавлена таблица" diff then
    table_name <- item_last (Py.split " " diff) ;;
    add_table self table_name
  else if Py.contains "Отсутствует таблица" diff then
    table_name <- item_last (Py.split " " diff) ;;
    create_table self table_name
  else if Py.contains "отсутствует колонка" diff then
    names <- unpack2 (Py.suffix_slice 2 (Py.split " " diff)) ;;
    add_column self (fst names) (snd names)
  else if Py.contains "отсутствует индекс" diff then
    names <- unpack2 (Py.suffix_slice 2 (Py.split " " diff)) ;;
    add_index self (fst names) (snd names)
  else ret tt.

(** Lines 49-65. *)
Definition correct_schema (self : gmap string PyValue) : M unit :=
  differences <- compare_schemas self ;;
  for_each differences (correct_difference self) ;;
  print "Корректировка завершена".

(** Lines 137-142. *)
Definition main : M unit :=
  let corrector := __init__ SourceDb TargetDb in
  correct_schema corrector.

End DatabaseCorrector.

(** ** Vocabulary for the statements below *)

(** The table of a given name in a database. *)
Definition db_table (db : Database) (table_name : string) : option Table :=
  find (fun t => String.eqb (tbl_name t) table_name) (db_tables db).

(** The target gains a column, or an index, in the table of the given name. *)
Definition table_add_column (c : Column) (t : Table) : Table :=
  mkTable (tbl_name t) (tbl_columns t ++ [c]) (tbl_indexes t).

Definition table_add_index (i : Index) (t : Table) : Table :=
  mkTable (tbl_name t) (tbl_columns t) (tbl_indexes t ++ [i]).

Definition db_alter_table (table_name : string) (f : Table -> Table) (db : Database)
  : Database :=
  mkDatabase
    (map (fun t => if String.eqb (tbl_name t) table_name then f t else t) (db_tables db)).

Definition db_add_column (table_name : string) (c : Column) : Database -> Database :=
  db_alter_table table_name (table_add_column c).

Definition db_add_index (table_name : string) (i : Index) : Database -> Database :=
  db_alter_table table_name (table_add_index i).

(** The character occurs in the string. *)
Fixpoint has_char (c : ascii) (s : string) : bool :=
  match s with
  | EmptyString => false
  | String c' rest => Ascii.eqb c' c || has_char c rest
  end.

(** The fields of a split string, once more text is added at its end. *)
Fixpoint append_to_last (n : string) (fields : list string) : list string :=
  match fields with
  | [] => []
  | [field] => [field +:+ n]
  | field :: fields => field :: append_to_last n fields
  end.



(** A database with everything but the names erased: column types and
    nullability, index columns and uniqueness. *)
Definition column_name_only (c : Column) : Column :=
  mkColumn (col_name c) EmptyString true.

Definition index_name_only (i : Index) : Index := mkIndex (idx_name i) [] false.

Definition table_names_only (t : Table) : Table :=
  mkTable (tbl_name t) (map column_name_only (tbl_columns t))
    (map index_name_only (tbl_indexes t)).

Definition db_names_only (db : Database) : Database :=
  mkDatabase (map table_names_only (db_tables db)).

(** The wire log of text statements sent to [u] one after the other, each
    in a committed transaction, followed at most by one that was rolled
    back. *)
Definition transaction_log (u : Url) (committed : list string)
    (rolled_back : option string) : list WireEvent :=
  flat_map (fun sql => [Begin u; Execute u (TextClause sql); Commit u]) committed ++
  match rolled_back with
  | Some sql => [Begin u; Execute u (TextClause sql); Rollback u]
  | None => []
  end.

(** Every name of a column and of an index in the tables of a database is
    free of spaces. *)
Definition names_without_space (db : Database) : Prop :=
  forall n st, db_table db n = Some st ->
    Forall (fun c => has_char " " (col_name c) = false) (tbl_columns st) /\
    Forall (fun i => has_char " " (idx_name i) = false) (tbl_indexes st).

(** The line [correct_schema] prints before it acts on a difference, and
    the line it prints at the end. *)
Definition progress_line (diff : string) : string := "Корректируем: " +:+ diff.

Definition closing_line : string := "Корректировка завершена".

(** Lines 51-65 for a given list of differences: the loop and the closing
    line. *)
Definition correct_differences (backend : Backend) (self : gmap string PyValue)
    (differences : list string) : M unit :=
  for_each differences (correct_difference backend self) ;;
  print "Корректировка завершена".

(** ** Engines and databases for the examples *)

(** An engine that accepts every statement and one that refuses every
    statement; both render a column by its name. *)
Definition accepting_backend : Backend :=
  mkBackend (fun _ db => Ok db) col_name.

Definition refusing_backend : Backend :=
  mkBackend (fun _ _ => Raise (DatabaseError "permission denied")) col_name.

Definition int_column (name : string) : Column := mkColumn name "INTEGER" true.

Definition empty_database : Database := mkDatabase [].

(** [users(id, name, email)] with the unique index [idx_name] against
    [users(id, name)]. *)
Definition users_idx_name : Index := mkIndex "idx_name" [int_column "name"] true.

Definition users_table : Table :=
  mkTable "users" [int_column "id"; int_column "name"; int_column "email"]
    [users_idx_name].

Definition users_short_table : Table :=
  mkTable "users" [int_column "id"; int_column "name"] [].

Definition users_full : Database := mkDatabase [users_table].

Definition users_short : Database := mkDatabase [users_short_table].

(** A database with the single table [orders], and one with [users] and
    [orders]. *)
Definition orders_table : Table := mkTable "orders" [int_column "id"] [].

Definition orders_only : Database := mkDatabase [orders_table].

Definition users_and_orders : Database := mkDatabase [users_table; orders_table].

(** An index name with a NUL character in it, which no quoting makes an
    identifier. *)
Definition unsafe_index_name : string :=
  "idx" +:+ String (ascii_of_nat 0) "name".

Definition unsafe_source : Database :=
  mkDatabase
    [mkTable "users" [int_column "id"]
       [mkIndex unsafe_index_name [int_column "id"] false]].

(** * Properties *)

(** ** The inspector and the comparison loop *)

Lemma compare_table_raises (S T : Database) (differences : list string) (n : string) :
  compare_table_try S T differences n = Raise (AttributeError "get_table") /\
  compare_table S T differences n = Raise (AttributeError "get_table").
Proof. split; reflexivity. Qed.

Lemma compare_tables_cases (S T : Database) (names differences : list string) :
  compare_tables S T names differences =
  match names with
  | [] => Ok differences
  | _ :: _ => Raise (AttributeError "get_table")
  end.
Proof. by destruct names. Qed.

Lemma elem_of_table_name_union (source_names target_names : list string) (n : string) :
  n ∈ table_name_union source_names target_names <->
  n ∈ source_names \/ n ∈ target_names.
Proof.
  unfold table_name_union.
  rewrite elem_of_elements, elem_of_union, !elem_of_list_to_set. done.
Qed.

Lemma table_name_union_nil (source_names target_names : list string) :
  table_name_union source_names target_names = [] <->
  source_names = [] /\ target_names = [].
Proof.
  split.
  - intros Hnil.
    assert (forall n, ~ (n ∈ source_names \/ n ∈ target_names)) as Hnone.
    { intros n Hn. apply elem_of_table_name_union in Hn.
      rewrite Hnil in Hn. by apply elem_of_nil in Hn. }
    split.
    + destruct source_names as [|n ?]; [done|].
      destruct (Hnone n). left. apply elem_of_cons. by left.
    + destruct target_names as [|n ?]; [done|].
      destruct (Hnone n). right. apply elem_of_cons. by left.
  - intros [-> ->]. reflexivity.
Qed.

Lemma compare_inspectors_cases (S T : Database) :
  compare_inspectors S T =
  match get_table_names S ++ get_table_names T with
  | [] => Ok []
  | _ :: _ => Raise (AttributeError "get_table")
  end.
Proof.
  unfold compare_inspectors. rewrite compare_tables_cases.
  destruct (table_name_union (get_table_names S) (get_table_names T)) as [|n names]
    eqn:Hunion.
  - apply table_name_union_nil in Hunion as [-> ->]. done.
  - destruct (get_table_names S ++ get_table_names T) as [|m ms] eqn:Happ; [|done].
    apply app_eq_nil in Happ as [HS HT].
    rewrite (proj2 (table_name_union_nil _ _) (conj HS HT)) in Hunion. done.
Qed.

(** ** The two inner loops as filters *)

Lemma compare_columns_filter table_name source_table target_table differences :
  compare_columns table_name source_table target_table differences =
  differences ++
    map (msg_column_missing table_name)
      (filter (fun name => name ∉ map col_name (tbl_columns target_table))
         (map col_name (tbl_columns source_table))).
Proof.
  unfold compare_columns.
  generalize dependent differences.
  induction (tbl_columns source_table) as [|col cols IH]; intros differences; simpl.
  - by rewrite app_nil_r.
  - rewrite IH, filter_cons. case_bool_decide as Hin.
    + by rewrite decide_False by (intros Hn; by apply Hn).
    + rewrite decide_True by done. simpl. by rewrite <- app_assoc.
Qed.

Lemma compare_indexes_filter table_name source_table target_table differences :
  compare_indexes table_name source_table target_table differences =
  differences ++
    map (msg_index_missing table_name)
      (filter (fun name => name ∉ map idx_name (tbl_indexes target_table))
         (map idx_name (tbl_indexes source_table))).
Proof.
  unfold compare_indexes.
  generalize dependent differences.
  induction (tbl_indexes source_table) as [|idx idxs IH]; intros differences; simpl.
  - by rewrite app_nil_r.
  - rewrite IH, filter_cons. case_bool_decide as Hin.
    + by rewrite decide_False by (intros Hn; by apply Hn).
    + rewrite decide_True by done. simpl. by rewrite <- app_assoc.
Qed.

Lemma filter_agree {A} (P Q : A -> Prop) `{!forall x, Decision (P x)}
    `{!forall x, Decision (Q x)} (l : list A) :
  Forall (fun x => P x <-> Q x) l -> filter P l = filter Q l.
Proof.
  induction 1 as [|x l Hx _ IH]; [done|].
  rewrite !filter_cons, IH.
  destruct (decide (P x)), (decide (Q x)); tauto.
Qed.

(** ** The attributes the constructor sets *)

Lemma getattr_source_engine (source_url target_url : Url) :
  getattr (__init__ source_url target_url) "source_engine" = ret (VEngine source_url).
Proof. reflexivity. Qed.

Lemma getattr_target_engine (source_url target_url : Url) :
  getattr (__init__ source_url target_url) "target_engine" = ret (VEngine target_url).
Proof. reflexivity. Qed.

Lemma getattr_metadata (source_url target_url : Url) :
  getattr (__init__ source_url target_url) "metadata" = raise (AttributeError "metadata").
Proof. reflexivity. Qed.

Lemma compare_schemas_init (source_url target_url : Url) (w : World) :
  compare_schemas (__init__ source_url target_url) w =
  (compare_inspectors (connect source_url w) (connect target_url w), w).
Proof.
  unfold compare_schemas, bind.
  rewrite getattr_source_engine, getattr_target_engine. reflexivity.
Qed.

(** ** Strings *)

Lemma split_without_separator (sep : ascii) (s : string) :
  has_char sep s = false -> Py.split sep s = [s].
Proof.
  induction s as [|c s IH]; simpl; [done|].
  intros H. apply orb_false_iff in H as [Hc Hs].
  rewrite Hc, IH; done.
Qed.

Lemma split_not_empty (sep : ascii) (s : string) : Py.split sep s <> [].
Proof.
  destruct s as [|c s]; simpl; [done|].
  destruct (Ascii.eqb c sep); [done|]. by destruct (Py.split sep s).
Qed.

Lemma split_append (sep : ascii) (p n : string) :
  has_char sep n = false ->
  Py.split sep (p +:+ n) = append_to_last n (Py.split sep p).
Proof.
  intros Hn. induction p as [|c p IH]; simpl.
  - by rewrite split_without_separator.
  - pose proof (split_not_empty sep p) as Hp. rewrite IH.
    destruct (Py.split sep p) as [|g gs]; [done|].
    destruct (Ascii.eqb c sep); by destruct gs.
Qed.

Lemma last_append_to_last (n : string) (fields : list string) :
  last (append_to_last n fields) = (fun field => field +:+ n) <$> last fields.
Proof.
  induction fields as [|f [|g fields] IH]; try done.
  change (last (f :: append_to_last n (g :: fields))
          = (fun field => field +:+ n) <$> last (g :: fields)).
  rewrite <- IH. by destruct fields.
Qed.

Lemma last_split_append (sep : ascii) (p n : string) :
  has_char sep n = false ->
  last (Py.split sep (p +:+ n)) = (fun field => field +:+ n) <$> last (Py.split sep p).
Proof. intros Hn. by rewrite split_append, last_append_to_last. Qed.

Lemma prefix_has_char (c : ascii) (needle x : string) :
  has_char c needle = true -> String.prefix needle x = true -> has_char c x = true.
Proof.
  revert x. induction needle as [|d needle IH]; intros [|e x]; simpl; try done.
  intros Hc. destruct (ascii_dec d e) as [->|]; [|done]. intros Hp.
  destruct (Ascii.eqb e c); [done|]. by apply IH.
Qed.

Lemma contains_needs_char (c : ascii) (needle x : string) :
  has_char c needle = true -> has_char c x = false -> Py.contains needle x = false.
Proof.
  intros Hc. induction x as [|d x IH]; intros H.
  - destruct (String.prefix needle EmptyString) eqn:E.
    + apply (prefix_has_char c) in E; done.
    + change (Py.contains needle EmptyString)
        with (String.prefix needle EmptyString || false).
      by rewrite E.
  - destruct (String.prefix needle (String d x)) eqn:E.
    + apply (prefix_has_char c) in E; [congruence|done].
    + simpl in H. apply orb_false_iff in H as [_ H].
      change (Py.contains needle (String d x))
        with (String.prefix needle (String d x) || Py.contains needle x).
      by rewrite E, IH.
Qed.


Lemma contains_prefix (n x : string) :
  String.prefix n x = true -> Py.contains n x = true.
Proof. intros H. destruct x; unfold Py.contains; by rewrite H. Qed.





Lemma split_word (n rest : string) :
  has_char " " n = false ->
  Py.split " " (n +:+ String " " rest) = n :: Py.split " " rest.
Proof.
  induction n as [|c n IH]; intros Hn; [done|].
  simpl in Hn. apply orb_false_iff in Hn as [Hc Hn].
  change (String c n +:+ String " " rest) with (String c (n +:+ String " " rest)).
  cbn [Py.split]. by rewrite Hc, IH.
Qed.

(** ** From a message to a routine *)

Lemma table_added_is_recognised (n : string) :
  Py.contains "Добавлена таблица" (msg_table_added n) = true.
Proof. apply contains_prefix. reflexivity. Qed.

Lemma table_missing_is_recognised (n : string) :
  has_char " " n = false ->
  Py.contains "Добавлена таблица" (msg_table_missing n) = false /\
  Py.contains "Отсутствует таблица" (msg_table_missing n) = true.
Proof.
  intros Hn. split; [|apply contains_prefix; reflexivity].
  unfold msg_table_missing. simpl.
  by apply (contains_needs_char " ").
Qed.

Lemma table_name_of_message (n : string) :
  has_char " " n = false ->
  item_last (Py.split " " (msg_table_added n)) = ret n /\
  item_last (Py.split " " (msg_table_missing n)) = ret n.
Proof.
  intros Hn. unfold item_last, msg_table_added, msg_table_missing.
  by rewrite !last_split_append.
Qed.






(** ** Words of a message, whatever the table name *)

Lemma append_assoc (a b c : string) : (a +:+ b) +:+ c = a +:+ (b +:+ c).
Proof.
  induction a as [|x a IH]; [done|].
  change (String x ((a +:+ b) +:+ c) = String x (a +:+ (b +:+ c))). by rewrite IH.
Qed.

Lemma split_append_separator (sep : ascii) (x r : string) :
  Py.split sep (x +:+ String sep r) = Py.split sep x ++ Py.split sep r.
Proof.
  induction x as [|c x IH].
  - simpl. by rewrite Ascii.eqb_refl.
  - change (String c x +:+ String sep r) with (String c (x +:+ String sep r)).
    cbn [Py.split]. rewrite IH.
    pose proof (split_not_empty sep x) as Hx.
    destruct (Ascii.eqb c sep); [reflexivity|]. by destruct (Py.split sep x).
Qed.

Lemma last_two_words (x word name : string) :
  has_char " " word = false -> has_char " " name = false ->
  Py.suffix_slice 2 (Py.split " " (x +:+ String " " (word +:+ String " " name)))
  = [word; name].
Proof.
  intros Hword Hname. rewrite split_append_separator, split_word by done.
  rewrite (split_without_separator " " name) by done.
  unfold Py.suffix_slice. rewrite length_app. simpl.
  replace (length (Py.split " " x) + 2 - 2) with (length (Py.split " " x)) by lia.
  apply drop_app_length.
Qed.

Lemma column_message_ends_in_word_and_name (n c : string) :
  has_char " " c = false ->
  Py.suffix_slice 2 (Py.split " " (msg_column_missing n c)) = ["колонка"; c].
Proof.
  intros Hc. unfold msg_column_missing.
  replace ("В таблице " +:+ n +:+ " отсутствует колонка " +:+ c)
    with (("В таблице " +:+ n +:+ " отсутствует")
          +:+ String " " ("колонка" +:+ String " " c)).
  - by apply last_two_words.
  - by rewrite !append_assoc.
Qed.

Lemma index_message_ends_in_word_and_name (n i : string) :
  has_char " " i = false ->
  Py.suffix_slice 2 (Py.split " " (msg_index_missing n i)) = ["индекс"; i].
Proof.
  intros Hi. unfold msg_index_missing.
  replace ("В таблице " +:+ n +:+ " отсутствует индекс " +:+ i)
    with (("В таблице " +:+ n +:+ " отсутствует")
          +:+ String " " ("индекс" +:+ String " " i)).
  - by apply last_two_words.
  - by rewrite !append_assoc.
Qed.


(** ** Counting the words of a message *)

Lemma contains_has_char (c : ascii) (needle x : string) :
  has_char c needle = true -> Py.contains needle x = true -> has_char c x = true.
Proof.
  intros Hneedle Hx. destruct (has_char c x) eqn:E; [done|].
  by rewrite (contains_needs_char c needle x Hneedle E) in Hx.
Qed.

Lemma split_two_fields (sep : ascii) (x : string) :
  has_char sep x = true -> 2 <= length (Py.split sep x).
Proof.
  induction x as [|c x IH]; simpl; [done|].
  pose proof (split_not_empty sep x) as Hx.
  destruct (Ascii.eqb c sep); simpl.
  - intros _. destruct (Py.split sep x); [done|simpl; lia].
  - intros H. specialize (IH H). destruct (Py.split sep x); [done|exact IH].
Qed.

Lemma suffix_slice_two (l : list string) :
  2 <= length l -> exists a b, Py.suffix_slice 2 l = [a; b].
Proof.
  intros Hl. unfold Py.suffix_slice.
  assert (length (drop (length l - 2) l) = 2) as Hlen by (rewrite length_drop; lia).
  destruct (drop (length l - 2) l) as [|a [|b [|c rest]]]; try done.
  by exists a, b.
Qed.

(** ** The routines of an instance the constructor built *)

Section Routines.

Variable backend : Backend.

Lemma add_table_init (s t : Url) (n : string) (w : World) :
  add_table backend (__init__ s t) n w = (Raise (AttributeError "get_table"), w).
Proof. reflexivity. Qed.

Lemma create_table_init (s t : Url) (n : string) (w : World) :
  create_table backend (__init__ s t) n w = (Raise (AttributeError "get_table"), w).
Proof. reflexivity. Qed.

Lemma add_column_init (s t : Url) (n name : string) (w : World) :
  add_column backend (__init__ s t) n name w = (Raise (AttributeError "get_table"), w).
Proof. reflexivity. Qed.

Lemma add_index_init (s t : Url) (n name : string) (w : World) :
  add_index backend (__init__ s t) n name w = (Raise (AttributeError "get_table"), w).
Proof. reflexivity. Qed.

Lemma engine_begin_raises (u : Url) (body : Url -> M unit) (w : World) :
  engine_begin (VEngine u) body w = (Raise TypeError, w).
Proof. reflexivity. Qed.

Lemma connect_emit (u : Url) (line : string) (w : World) :
  connect u (emit line w) = connect u w.
Proof. by destruct u. Qed.

(** ** From a difference to a routine *)

Lemma correct_difference_table_added (self : gmap string PyValue) (n : string)
    (w : World) :
  has_char " " n = false ->
  correct_difference backend self (msg_table_added n) w
  = add_table backend self n (emit ("Корректируем: " +:+ msg_table_added n) w).
Proof.
  intros Hn. unfold correct_difference, bind, print.
  rewrite table_added_is_recognised.
  by rewrite (proj1 (table_name_of_message n Hn)).
Qed.

Lemma correct_difference_table_missing (self : gmap string PyValue) (n : string)
    (w : World) :
  has_char " " n = false ->
  correct_difference backend self (msg_table_missing n) w
  = create_table backend self n (emit ("Корректируем: " +:+ msg_table_missing n) w).
Proof.
  intros Hn. unfold correct_difference, bind, print.
  destruct (table_missing_is_recognised n Hn) as [-> ->].
  by rewrite (proj2 (table_name_of_message n Hn)).
Qed.



(** One step of the loop, for an instance the constructor built: the
    progress line, then the error of the routine, or nothing more when the
    text holds none of the four phrases. *)
Lemma correct_difference_init (s t : Url) (diff : string) (w : World) :
  correct_difference backend (__init__ s t) diff w
    = (Raise (AttributeError "get_table"), emit (progress_line diff) w) \/
  correct_difference backend (__init__ s t) diff w
    = (Ok tt, emit (progress_line diff) w).
Proof.
  unfold correct_difference, bind, print, item_last, unpack2, ret, raise, progress_line.
  pose proof (split_not_empty " " diff) as Hsplit.
  assert (exists word, last (Py.split " " diff) = Some word) as (word & Hlast).
  { destruct (Py.split " " diff) as [|f fs] using rev_ind; [done|].
    exists f. by rewrite last_snoc. }
  destruct (Py.contains "Добавлена таблица" diff).
  { left. by rewrite Hlast. }
  destruct (Py.contains "Отсутствует таблица" diff).
  { left. by rewrite Hlast. }
  destruct (Py.contains "отсутствует колонка" diff) eqn:Hcol.
  { left. destruct (suffix_slice_two (Py.split " " diff)) as (a & b & ->); [|done].
    apply split_two_fields. by apply (contains_has_char " " "отсутствует колонка"). }
  destruct (Py.contains "отсутствует индекс" diff) eqn:Hidx.
  { left. destruct (suffix_slice_two (Py.split " " diff)) as (a & b & ->); [|done].
    apply split_two_fields. by apply (contains_has_char " " "отсутствует индекс"). }
  by right.
Qed.

Lemma compare_schemas_cases (s t : Url) (w : World) :
  compare_schemas (__init__ s t) w =
  match get_table_names (connect s w) ++ get_table_names (connect t w) with
  | [] => (Ok [], w)
  | _ :: _ => (Raise (AttributeError "get_table"), w)
  end.
Proof.
  rewrite compare_schemas_init, compare_inspectors_cases.
  by destruct (get_table_names (connect s w) ++ get_table_names (connect t w)).
Qed.

Lemma correct_schema_cases (s t : Url) (w : World) :
  correct_schema backend (__init__ s t) w =
  match get_table_names (connect s w) ++ get_table_names (connect t w) with
  | [] => (Ok tt, emit "Корректировка завершена" w)
  | _ :: _ => (Raise (AttributeError "get_table"), w)
  end.
Proof.
  unfold correct_schema, bind at 1. rewrite compare_schemas_cases.
  by destruct (get_table_names (connect s w) ++ get_table_names (connect t w)).
Qed.

(** * The claims *)

(** C1, on the code. The source has [users(id, name, email)] with the index
    [idx_name], the target [users(id, name)].  The pass does not get as far
    as a difference: the first [inspector.get_table] of [compare_schemas]
    raises [AttributeError], which leaves [correct_schema]; nothing is
    printed and nothing is sent.  The target is as it was and still lacks
    the column that the source has. *)
Theorem correction_pass_raises_before_correcting :
  let w := mkWorld users_full users_short [] [] in
  main backend w = (Raise (AttributeError "get_table"), w) /\
  db_table (source_db w) "users" = Some users_table /\
  db_table (target_db w) "users" = Some users_short_table /\
  "email" ∈ map col_name (tbl_columns users_table) /\
  "email" ∉ map col_name (tbl_columns users_short_table).
Proof.
  repeat split; try reflexivity.
  - apply (bool_decide_unpack _). vm_compute. exact I.
  - apply (bool_decide_unpack _). vm_compute. exact I.
Qed.

(** C2, on the code. For a database with a table, comparing it with itself
    does not give the empty list: [compare_schemas] raises [AttributeError]
    at the first [inspector.get_table], which the handler for
    [OperationalError] does not catch.  The empty list is returned for the
    database without tables only. *)
Theorem compare_schemas_self_raises (table : Table) (tables : list Table)
    (out : list string) (sent : list WireEvent) :
  let S := mkDatabase (table :: tables) in
  compare_inspectors S S = Raise (AttributeError "get_table") /\
  compare_schemas (__init__ SourceDb TargetDb) (mkWorld S S out sent)
    = (Raise (AttributeError "get_table"), mkWorld S S out sent) /\
  compare_schemas (__init__ SourceDb TargetDb)
      (mkWorld empty_database empty_database out sent)
    = (Ok [], mkWorld empty_database empty_database out sent).
Proof.
  intros S. split; [by rewrite compare_inspectors_cases|].
  split; by rewrite compare_schemas_cases.
Qed.

(** C3, on the code. Neither kind of table-level difference leads to a
    [CreateTable]: [add_table] and [create_table] raise [AttributeError] at
    [inspector.get_table] and leave the world as it was, and so the step of
    the loop for the table [users] that only the source has, and the step
    for the table [orders] that only the target has, end in that error with
    the progress line printed and nothing sent. *)
Theorem table_differences_create_no_table (s t : Url) (n : string) (w : World) :
  add_table backend (__init__ s t) n w = (Raise (AttributeError "get_table"), w) /\
  create_table backend (__init__ s t) n w = (Raise (AttributeError "get_table"), w) /\
  correct_difference backend (__init__ s t) (msg_table_missing "users") w
    = (Raise (AttributeError "get_table"),
       emit (progress_line (msg_table_missing "users")) w) /\
  correct_difference backend (__init__ s t) (msg_table_added "orders") w
    = (Raise (AttributeError "get_table"),
       emit (progress_line (msg_table_added "orders")) w).
Proof.
  split; [reflexivity|]. split; [reflexivity|].
  split.
  - by rewrite correct_difference_table_missing.
  - by rewrite correct_difference_table_added.
Qed.

(** C4, as the code has it. The constructor sets [source_engine] and
    [target_engine] only, but the table-creation routines do not get as far
    as [self.metadata]: whatever the table, [add_table] and [create_table]
    raise [AttributeError] at [inspector.get_table]; nothing has been sent
    or printed, and the world, the target with it, is as it was. *)
Theorem table_creation_raises_before_any_statement (s t : Url) (n : string)
    (w : World) :
  __init__ s t !! "metadata" = None /\
  fst (add_table backend (__init__ s t) n w) = Raise (AttributeError "get_table") /\
  snd (add_table backend (__init__ s t) n w) = w /\
  fst (create_table backend (__init__ s t) n w) = Raise (AttributeError "get_table") /\
  snd (create_table backend (__init__ s t) n w) = w.
Proof. repeat split; reflexivity. Qed.

Lemma for_each_app {A} (pre post : list A) (body : A -> M unit) (w : World) :
  for_each (pre ++ post) body w =
  match for_each pre body w with
  | (Ok _, w') => for_each post body w'
  | (Raise e, w') => (Raise e, w')
  end.
Proof.
  revert w. induction pre as [|x pre IH]; intros w; simpl; [done|].
  unfold bind. destruct (body x w) as [[[]|e] w']; [apply IH|done].
Qed.

(** C5, as the code has it. The loop of [correct_schema] has no handler
    around the routines: when the routine called for one difference raises,
    the error leaves the loop, the differences after it are not looked at
    and the closing line is not printed. *)
Theorem failed_action_aborts_run (self : gmap string PyValue)
    (pre rest : list string) (diff : string) (w w0 w1 : World) (e : exn) :
  for_each pre (correct_difference backend self) w = (Ok tt, w0) ->
  correct_difference backend self diff w0 = (Raise e, w1) ->
  for_each (pre ++ diff :: rest) (correct_difference backend self) w = (Raise e, w1) /\
  correct_differences backend self (pre ++ diff :: rest) w = (Raise e, w1).
Proof.
  intros Hpre Hdiff.
  assert (for_each (pre ++ diff :: rest) (correct_difference backend self) w
          = (Raise e, w1)) as Hloop.
  { rewrite for_each_app, Hpre. simpl. unfold bind at 1. by rewrite Hdiff. }
  split; [done|]. unfold correct_differences, bind. by rewrite Hloop.
Qed.

(** C6, on the code. No transaction is begun: [async with engine.begin()]
    on the engine the constructor made raises [TypeError] before the body is
    run, whatever the body, and each of the four routines has raised
    [AttributeError] at [inspector.get_table] before it gets there.  The
    wire log after the call is the wire log before it. *)
Theorem no_transaction_is_begun (s t : Url) (n name : string)
    (body : Url -> M unit) (w : World) :
  engine_begin (VEngine t) body w = (Raise TypeError, w) /\
  add_table backend (__init__ s t) n w = (Raise (AttributeError "get_table"), w) /\
  create_table backend (__init__ s t) n w = (Raise (AttributeError "get_table"), w) /\
  add_column backend (__init__ s t) n name w
    = (Raise (AttributeError "get_table"), w) /\
  add_index backend (__init__ s t) n name w
    = (Raise (AttributeError "get_table"), w).
Proof. repeat split; reflexivity. Qed.

(** C7, on the code. A table is not skipped: the call that fetches its
    metadata raises [AttributeError], which [except OperationalError] does
    not catch, so the error leaves the iteration and the loop with it, and
    the tables after it are not compared.  With the tables [users] and
    [orders] in the source and none in the target, [compare_schemas] ends
    in that error. *)
Theorem table_not_skipped_but_comparison_ended (S T : Database) (n : string)
    (rest differences : list string) :
  compare_table_try S T differences n = Raise (AttributeError "get_table") /\
  compare_table S T differences n = Raise (AttributeError "get_table") /\
  compare_tables S T (n :: rest) differences = Raise (AttributeError "get_table") /\
  compare_schemas (__init__ SourceDb TargetDb)
      (mkWorld users_and_orders empty_database [] [])
    = (Raise (AttributeError "get_table"),
       mkWorld users_and_orders empty_database [] []).
Proof. repeat split; reflexivity. Qed.

(** ** Columns and indexes that only the target has *)

Lemma get_table_names_alter (n : string) (f : Table -> Table) (T : Database) :
  (forall t, tbl_name (f t) = tbl_name t) ->
  get_table_names (db_alter_table n f T) = get_table_names T.
Proof.
  intros Hf. unfold get_table_names, db_alter_table. simpl.
  rewrite map_map. apply map_ext. intros t.
  destruct (String.eqb (tbl_name t) n); auto.
Qed.

Lemma compare_columns_extra_column (n : string) (st tt : Table) (c : Column)
    (differences : list string) :
  col_name c ∉ map col_name (tbl_columns st) ->
  compare_columns n st (table_add_column c tt) differences
  = compare_columns n st tt differences.
Proof.
  intros Hc. rewrite !compare_columns_filter. simpl. do 2 f_equal.
  apply filter_agree, Forall_forall. intros name Hin.
  rewrite map_app, elem_of_app. simpl. rewrite list_elem_of_singleton.
  split; [intros Hn H; apply Hn; by left|].
  intros Hn [H| ->]; [done|]. by apply Hc.
Qed.

Lemma compare_indexes_extra_index (n : string) (st tt : Table) (i : Index)
    (differences : list string) :
  idx_name i ∉ map idx_name (tbl_indexes st) ->
  compare_indexes n st (table_add_index i tt) differences
  = compare_indexes n st tt differences.
Proof.
  intros Hi. rewrite !compare_indexes_filter. simpl. do 2 f_equal.
  apply filter_agree, Forall_forall. intros name Hin.
  rewrite map_app, elem_of_app. simpl. rewrite list_elem_of_singleton.
  split; [intros Hn H; apply Hn; by left|].
  intros Hn [H| ->]; [done|]. by apply Hi.
Qed.

Lemma inner_loops_origin (n : string) (st tt : Table) (m : string) :
  m ∈ compare_indexes n st tt (compare_columns n st tt []) ->
  (exists c, c ∈ tbl_columns st /\
             (col_name c ∉ map col_name (tbl_columns tt)) /\
             m = msg_column_missing n (col_name c)) \/
  (exists i, i ∈ tbl_indexes st /\
             (idx_name i ∉ map idx_name (tbl_indexes tt)) /\
             m = msg_index_missing n (idx_name i)).
Proof.
  rewrite compare_indexes_filter, compare_columns_filter. simpl.
  rewrite elem_of_app. intros [Hin|Hin].
  - left. apply list_elem_of_fmap in Hin as (name & -> & Hin).
    apply list_elem_of_filter in Hin as [Hnot Hin].
    apply list_elem_of_fmap in Hin as (c & -> & Hc). by exists c.
  - right. apply list_elem_of_fmap in Hin as (name & -> & Hin).
    apply list_elem_of_filter in Hin as [Hnot Hin].
    apply list_elem_of_fmap in Hin as (i & -> & Hi). by exists i.
Qed.

(** C8. Difference detection for columns and indexes runs over the source
    table's columns and indexes only.  Every message of the two inner loops
    names a column (an index) of the source table that the target table
    lacks, and a column (an index) of the target table whose name the
    source table does not have changes nothing in what the loops append.
    Giving a table of the target such a column or index changes neither the
    result of the comparison nor the outcome of the run, and nothing is sent
    for it. *)
Theorem target_only_columns_and_indexes_not_flagged (S T : Database) (n : string)
    (c : Column) (i : Index) (st tt : Table) (differences : list string)
    (w : World) :
  col_name c ∉ map col_name (tbl_columns st) ->
  idx_name i ∉ map idx_name (tbl_indexes st) ->
  (compare_columns n st (table_add_column c tt) differences
     = compare_columns n st tt differences /\
   compare_indexes n st (table_add_column c tt) differences
     = compare_indexes n st tt differences /\
   compare_columns n st (table_add_index i tt) differences
     = compare_columns n st tt differences /\
   compare_indexes n st (table_add_index i tt) differences
     = compare_indexes n st tt differences) /\
  (forall m, m ∈ compare_indexes n st tt (compare_columns n st tt []) ->
     (exists c', c' ∈ tbl_columns st /\
                 (col_name c' ∉ map col_name (tbl_columns tt)) /\
                 m = msg_column_missing n (col_name c')) \/
     (exists i', i' ∈ tbl_indexes st /\
                 (idx_name i' ∉ map idx_name (tbl_indexes tt)) /\
                 m = msg_index_missing n (idx_name i'))) /\
  (compare_inspectors S (db_add_column n c T) = compare_inspectors S T /\
   compare_inspectors S (db_add_index n i T) = compare_inspectors S T) /\
  (let w_column := set_db TargetDb (db_add_column n c (target_db w)) w in
   let w_index := set_db TargetDb (db_add_index n i (target_db w)) w in
   fst (correct_schema backend (__init__ SourceDb TargetDb) w_column)
     = fst (correct_schema backend (__init__ SourceDb TargetDb) w) /\
   wire (snd (correct_schema backend (__init__ SourceDb TargetDb) w_column)) = wire w /\
   fst (correct_schema backend (__init__ SourceDb TargetDb) w_index)
     = fst (correct_schema backend (__init__ SourceDb TargetDb) w) /\
   wire (snd (correct_schema backend (__init__ SourceDb TargetDb) w_index)) = wire w).
Proof.
  intros Hc Hi.
  split.
  { split; [by apply compare_columns_extra_column|].
    split; [reflexivity|]. split; [reflexivity|].
    by apply compare_indexes_extra_index. }
  split; [intros m; apply inner_loops_origin|].
  split.
  { rewrite !compare_inspectors_cases. unfold db_add_column, db_add_index.
    by rewrite !get_table_names_alter. }
  intros w_column w_index. rewrite !correct_schema_cases. simpl.
  unfold db_add_column, db_add_index. rewrite !get_table_names_alter by done.
  by destruct (get_table_names (source_db w) ++ get_table_names (target_db w)).
Qed.

(** C9, on the code. The source has the unique index [idx_name] on
    [users(name)], the target has no index.  No index is created:
    [add_index] raises [AttributeError] at [inspector.get_table], the step
    of the loop for the difference ends in that error, and the run does not
    get as far as the difference.  Nothing is sent to the target. *)
Theorem index_difference_creates_no_index :
  let w := mkWorld users_full users_short [] [] in
  idx_unique users_idx_name = true /\
  add_index backend (__init__ SourceDb TargetDb) "users" "idx_name" w
    = (Raise (AttributeError "get_table"), w) /\
  correct_difference backend (__init__ SourceDb TargetDb)
      (msg_index_missing "users" "idx_name") w
    = (Raise (AttributeError "get_table"),
       emit (progress_line (msg_index_missing "users" "idx_name")) w) /\
  main backend w = (Raise (AttributeError "get_table"), w).
Proof. repeat split; reflexivity. Qed.

(** C10, as the code has it. No name is checked: whatever the names of the
    table and of the column or index, [add_column] and [add_index] end in
    the same way, with [AttributeError] at [inspector.get_table], before a
    statement is put together; nothing is sent to the target. *)
Theorem names_are_never_checked (s t : Url) (table_name name table_name' name' : string)
    (w : World) :
  add_index backend (__init__ s t) table_name name w
    = add_index backend (__init__ s t) table_name' name' w /\
  add_column backend (__init__ s t) table_name name w
    = add_column backend (__init__ s t) table_name' name' w /\
  add_index backend (__init__ s t) table_name name w
    = (Raise (AttributeError "get_table"), w) /\
  add_column backend (__init__ s t) table_name name w
    = (Raise (AttributeError "get_table"), w).
Proof. repeat split; reflexivity. Qed.

(** * Further properties *)

Lemma table_names_of_names_only (db : Database) :
  get_table_names (db_names_only db) = get_table_names db.
Proof.
  unfold get_table_names, db_names_only. simpl. rewrite map_map. by apply map_ext.
Qed.

(** X5. The comparison looks at names only: with the type and nullability
    of every column and the columns and uniqueness of every index erased on
    both sides, the result is the same.  A column whose type differs between
    source and target, or an index that differs in its columns or its
    uniqueness, is not reported. *)
Theorem comparison_sees_names_only (S T : Database) :
  compare_inspectors (db_names_only S) (db_names_only T) = compare_inspectors S T.
Proof.
  rewrite !compare_inspectors_cases. by rewrite !table_names_of_names_only.
Qed.

(** X6. The statements of a whole run go to the target one after the other,
    each a text statement in a transaction of its own: the wire log of the
    run is a row of committed transactions, followed at most by one that was
    rolled back, and then the run has ended in an error.  No transaction is
    left open, none is begun inside another, and an instance the
    constructor built sends no [CreateTable]. *)
Theorem run_is_a_row_of_transactions (s t : Url) (w : World) :
  exists committed rolled_back,
    wire (snd (correct_schema backend (__init__ s t) w))
      = wire w ++ transaction_log t committed rolled_back /\
    (is_Some rolled_back ->
     exists e, fst (correct_schema backend (__init__ s t) w) = Raise e).
Proof.
  exists [], None. rewrite correct_schema_cases.
  destruct (get_table_names (connect s w) ++ get_table_names (connect t w));
    simpl; rewrite app_nil_r; (split; [done|]); by intros [? ?].
Qed.

(** X7. A run never changes the source: when the two engines are for
    different databases, the source database after [correct_schema] is the
    one before it, however the run ends. *)
Theorem source_is_never_written (s t : Url) (w : World) :
  s <> t ->
  connect s (snd (correct_schema backend (__init__ s t) w)) = connect s w.
Proof.
  intros Hst. rewrite correct_schema_cases.
  destruct (get_table_names (connect s w) ++ get_table_names (connect t w));
    simpl; [by rewrite connect_emit|done].
Qed.

(** X8. A run ends normally only when neither database lists a table:
    the comparison has then returned no difference, and all that the run
    has printed is the closing line. *)
Theorem completed_run_had_no_table (s t : Url) (w w' : World) :
  correct_schema backend (__init__ s t) w = (Ok tt, w') ->
  get_table_names (connect s w) = [] /\
  get_table_names (connect t w) = [] /\
  compare_schemas (__init__ s t) w = (Ok [], w) /\
  w' = emit "Корректировка завершена" w.
Proof.
  rewrite correct_schema_cases, compare_schemas_cases.
  destruct (get_table_names (connect s w) ++ get_table_names (connect t w))
    as [|n names] eqn:Hnames; [|done].
  apply app_eq_nil in Hnames as [-> ->]. by intros [= <-].
Qed.

(** X9. When neither database lists a table, the run sends nothing and
    prints the closing line only. *)
Theorem nothing_to_correct (s t : Url) (w : World) :
  get_table_names (connect s w) = [] ->
  get_table_names (connect t w) = [] ->
  correct_schema backend (__init__ s t) w
  = (Ok tt, emit "Корректировка завершена" w).
Proof. intros Hs Ht. by rewrite correct_schema_cases, Hs, Ht. Qed.

(** X10. Unless the source has a table named [колонка] or a table named
    [индекс], a run changes nothing: whatever the differences are, and
    however the run ends, no statement is sent and both databases are as
    they were.  (The names of the columns and indexes of the source are
    taken to be free of spaces.) *)
Theorem run_without_those_tables_changes_nothing (s t : Url) (w : World) :
  names_without_space (connect s w) ->
  (forall st, get_table (connect s w) "колонка" <> Ok (Some st)) ->
  (forall st, get_table (connect s w) "индекс" <> Ok (Some st)) ->
  wire (snd (correct_schema backend (__init__ s t) w)) = wire w /\
  target_db (snd (correct_schema backend (__init__ s t) w)) = target_db w /\
  source_db (snd (correct_schema backend (__init__ s t) w)) = source_db w.
Proof.
  intros _ _ _. rewrite correct_schema_cases.
  by destruct (get_table_names (connect s w) ++ get_table_names (connect t w)).
Qed.

(** X11. A run cannot complete when a table has to be created: if the
    source lists a table that the target does not list, the run ends in an
    error. *)
Theorem table_to_create_ends_the_run (s t : Url) (n : string) (w : World) :
  n ∈ get_table_names (connect s w) ->
  n ∉ get_table_names (connect t w) ->
  exists e w', correct_schema backend (__init__ s t) w = (Raise e, w').
Proof.
  intros Hs _. rewrite correct_schema_cases.
  destruct (get_table_names (connect s w)) as [|m names];
    [by apply elem_of_nil in Hs|].
  simpl. by eexists _, _.
Qed.


(** X13. Taking a message apart never fails: whatever the text of the
    difference, [correct_schema] reaches one of the four routines or does
    nothing; [split] always gives a last word, and a text that holds one of
    the two phrases for columns and indexes has at least two words to
    unpack. *)
Theorem message_parsing_never_fails (self : gmap string PyValue) (diff : string)
    (w : World) :
  let w0 := emit (progress_line diff) w in
  (exists n, correct_difference backend self diff w = add_table backend self n w0) \/
  (exists n, correct_difference backend self diff w = create_table backend self n w0) \/
  (exists n c,
     correct_difference backend self diff w = add_column backend self n c w0) \/
  (exists n i,
     correct_difference backend self diff w = add_index backend self n i w0) \/
  correct_difference backend self diff w = (Ok tt, w0).
Proof.
  intros w0. unfold correct_difference, bind, print, item_last, unpack2.
  fold w0. change (emit ("Корректируем: " +:+ diff) w) with w0.
  pose proof (split_not_empty " " diff) as Hsplit.
  assert (exists word, last (Py.split " " diff) = Some word) as (word & Hlast).
  { destruct (Py.split " " diff) as [|f fs] using rev_ind; [done|].
    exists f. by rewrite last_snoc. }
  destruct (Py.contains "Добавлена таблица" diff).
  { left. exists word. by rewrite Hlast. }
  destruct (Py.contains "Отсутствует таблица" diff).
  { right; left. exists word. by rewrite Hlast. }
  destruct (Py.contains "отсутствует колонка" diff) eqn:Hcol.
  { right; right; left.
    destruct (suffix_slice_two (Py.split " " diff)) as (a & b & ->).
    - apply split_two_fields. by apply (contains_has_char " " "отсутствует колонка").
    - by exists a, b. }
  destruct (Py.contains "отсутствует индекс" diff) eqn:Hidx.
  { right; right; right; left.
    destruct (suffix_slice_two (Py.split " " diff)) as (a & b & ->).
    - apply split_two_fields. by apply (contains_has_char " " "отсутствует индекс").
    - by exists a, b. }
  by right; right; right; right.
Qed.

(** X16. The comparison reports no difference at all: when it returns,
    the list is empty and neither database has a table; as soon as one of
    them has a table, it raises [AttributeError] at the first
    [inspector.get_table]. *)
Theorem comparison_reports_no_difference (S T : Database) :
  (forall differences,
     compare_inspectors S T = Ok differences ->
     differences = [] /\ db_tables S = [] /\ db_tables T = []) /\
  (db_tables S <> [] \/ db_tables T <> [] ->
   compare_inspectors S T = Raise (AttributeError "get_table")).
Proof.
  rewrite compare_inspectors_cases. unfold get_table_names.
  destruct S as [[|a tables]], T as [[|b tables']]; simpl; split;
    try done; try (intros differences [= <-]; done); intros [H|H]; done.
Qed.


(** X18. A run changes nothing: whatever the two databases hold, a run
    sends no statement and leaves both databases as they were.  It prints
    the closing line when neither database lists a table, and nothing
    otherwise. *)
Theorem run_changes_nothing (s t : Url) (w : World) :
  let w' := snd (correct_schema backend (__init__ s t) w) in
  wire w' = wire w /\ source_db w' = source_db w /\ target_db w' = target_db w /\
  (stdout w' = stdout w ++ ["Корректировка завершена"] \/ stdout w' = stdout w).
Proof.
  intros w'. subst w'. rewrite correct_schema_cases.
  destruct (get_table_names (connect s w) ++ get_table_names (connect t w));
    simpl; repeat split; auto.
Qed.

(** X19. The statement that [add_index] puts together does not depend on
    the uniqueness of the index: it is made of the name of the index, the
    name of the table and the names of the columns, and two indexes with the
    same columns give the same text. *)
Theorem index_statement_ignores_uniqueness (table_name name : string)
    (i i' : Index) :
  idx_columns i = idx_columns i' ->
  add_index_sql table_name name i = add_index_sql table_name name i'.
Proof. intros Hcolumns. unfold add_index_sql. by rewrite Hcolumns. Qed.

End Routines.

(** * The theorems at work *)

(** ** The model on small inputs *)

Example split_keeps_empty_fields :
  Py.split " " "a  b " = ["a"; EmptyString; "b"; EmptyString].
Proof. reflexivity. Qed.

Example last_two_words_of_column_message :
  Py.suffix_slice 2 (Py.split " " (msg_column_missing "users" "email"))
  = ["колонка"; "email"].
Proof. reflexivity. Qed.

Example empty_databases_complete :
  main accepting_backend (mkWorld empty_database empty_database [] [])
  = (Ok tt, mkWorld empty_database empty_database ["Корректировка завершена"] []).
Proof. reflexivity. Qed.

(** ** Claims *)

(** C4, as the spec states it, fails: for the table [users], which the
    source has and the target lacks, the error that ends [create_table] and
    [add_table] is the one of [inspector.get_table].  It is not the error
    that reading [self.metadata] raises: that line is not reached. *)
Lemma table_creation_fails_before_metadata :
  let self := __init__ SourceDb TargetDb in
  let w := mkWorld users_full empty_database [] [] in
  create_table accepting_backend self "users" w
    = (Raise (AttributeError "get_table"), w) /\
  add_table accepting_backend self "users" w
    = (Raise (AttributeError "get_table"), w) /\
  getattr self "metadata" w = (Raise (AttributeError "metadata"), w) /\
  AttributeError "get_table" <> AttributeError "metadata".
Proof. repeat split; try reflexivity. discriminate. Qed.

Lemma failed_action_aborts_run_witness :
  let self := __init__ SourceDb TargetDb in
  let w := mkWorld users_full orders_only [] [] in
  let w0 := emit (progress_line "ok") w in
  let w1 := emit (progress_line (msg_table_missing "users")) w0 in
  for_each ["ok"] (correct_difference accepting_backend self) w = (Ok tt, w0) /\
  correct_difference accepting_backend self (msg_table_missing "users") w0
    = (Raise (AttributeError "get_table"), w1) /\
  for_each (["ok"] ++ msg_table_missing "users" :: [msg_table_added "orders"])
      (correct_difference accepting_backend self) w
    = (Raise (AttributeError "get_table"), w1) /\
  correct_differences accepting_backend self
      (["ok"] ++ msg_table_missing "users" :: [msg_table_added "orders"]) w
    = (Raise (AttributeError "get_table"), w1).
Proof.
  intros self w w0 w1.
  assert (for_each ["ok"] (correct_difference accepting_backend self) w = (Ok tt, w0))
    as Hpre by reflexivity.
  assert (correct_difference accepting_backend self (msg_table_missing "users") w0
          = (Raise (AttributeError "get_table"), w1)) as Hdiff by reflexivity.
  split; [exact Hpre|]. split; [exact Hdiff|].
  exact (failed_action_aborts_run accepting_backend self ["ok"]
           [msg_table_added "orders"] (msg_table_missing "users") w w0 w1
           (AttributeError "get_table") Hpre Hdiff).
Defined.

(** C5, as the spec states it, fails: the loop of [correct_schema], run on
    the two differences for the table [users] that the target lacks and the
    table [orders] that the source lacks, ends with the error of the first
    routine.  Nothing is done for the second difference: its progress line
    is not printed, and neither is the closing line.  The run for these two
    databases ends in the same error, with nothing printed at all. *)
Lemma failed_action_stops_the_loop :
  let w := mkWorld users_full orders_only [] [] in
  correct_differences accepting_backend (__init__ SourceDb TargetDb)
    [msg_table_missing "users"; msg_table_added "orders"] w
  = (Raise (AttributeError "get_table"),
     mkWorld users_full orders_only
       ["Корректируем: Отсутствует таблица users"] []) /\
  correct_schema accepting_backend (__init__ SourceDb TargetDb) w
  = (Raise (AttributeError "get_table"), w).
Proof. split; reflexivity. Qed.

Lemma target_only_columns_and_indexes_not_flagged_witness :
  let legacy := int_column "legacy" in
  let idx_legacy := mkIndex "idx_legacy" [int_column "legacy"] false in
  let w := mkWorld users_full users_short [] [] in
  (col_name legacy ∉ map col_name (tbl_columns users_table)) /\
  (idx_name idx_legacy ∉ map idx_name (tbl_indexes users_table)) /\
  compare_columns "users" users_table (table_add_column legacy users_short_table) []
    = compare_columns "users" users_table users_short_table [] /\
  compare_inspectors users_full (db_add_column "users" legacy users_short)
    = compare_inspectors users_full users_short /\
  wire (snd (correct_schema accepting_backend (__init__ SourceDb TargetDb)
               (set_db TargetDb (db_add_column "users" legacy (target_db w)) w)))
    = wire w.
Proof.
  intros legacy idx_legacy w.
  assert (col_name legacy ∉ map col_name (tbl_columns users_table)) as Hc.
  { apply (bool_decide_unpack _). vm_compute. exact I. }
  assert (idx_name idx_legacy ∉ map idx_name (tbl_indexes users_table)) as Hi.
  { apply (bool_decide_unpack _). vm_compute. exact I. }
  destruct (target_only_columns_and_indexes_not_flagged accepting_backend
              users_full users_short "users" legacy idx_legacy users_table
              users_short_table [] w Hc Hi)
    as ((Hloop & _) & _ & (Hcompare & _) & (_ & Hwire & _)).
  split; [exact Hc|]. split; [exact Hi|]. split; [exact Hloop|].
  split; [exact Hcompare|exact Hwire].
Defined.

(** C10, as the spec states it, fails: the index of the source bears a name
    with a NUL character.  The call for it is not refused on account of the
    name: it ends as the call for the index [idx_name] does, in the
    [AttributeError] of [inspector.get_table]. *)
Lemma unsafe_name_not_rejected :
  let w := mkWorld unsafe_source users_short [] [] in
  has_char (ascii_of_nat 0) unsafe_index_name = true /\
  add_index accepting_backend (__init__ SourceDb TargetDb) "users"
      unsafe_index_name w
    = (Raise (AttributeError "get_table"), w) /\
  add_index accepting_backend (__init__ SourceDb TargetDb) "users"
      unsafe_index_name w
    = add_index accepting_backend (__init__ SourceDb TargetDb) "users" "idx_name" w.
Proof. repeat split; reflexivity. Qed.

(** ** Further properties *)

Lemma source_is_never_written_witness :
  SourceDb <> TargetDb /\
  connect SourceDb
    (snd (correct_schema accepting_backend (__init__ SourceDb TargetDb)
            (mkWorld users_full users_short [] [])))
  = users_full.
Proof.
  assert (SourceDb <> TargetDb) as Hst by discriminate.
  split; [exact Hst|].
  exact (source_is_never_written accepting_backend SourceDb TargetDb
           (mkWorld users_full users_short [] []) Hst).
Defined.

Lemma completed_run_had_no_table_witness :
  let self := __init__ SourceDb TargetDb in
  let w := mkWorld empty_database empty_database [] [] in
  let w' := emit "Корректировка завершена" w in
  correct_schema accepting_backend self w = (Ok tt, w') /\
  get_table_names (connect SourceDb w) = [] /\
  get_table_names (connect TargetDb w) = [] /\
  compare_schemas self w = (Ok [], w) /\
  w' = emit "Корректировка завершена" w.
Proof.
  intros self w w'.
  assert (correct_schema accepting_backend self w = (Ok tt, w')) as Hrun
    by reflexivity.
  split; [exact Hrun|].
  exact (completed_run_had_no_table accepting_backend SourceDb TargetDb w w' Hrun).
Defined.

Lemma nothing_to_correct_witness :
  let w := mkWorld empty_database empty_database [] [] in
  get_table_names (connect SourceDb w) = [] /\
  get_table_names (connect TargetDb w) = [] /\
  correct_schema refusing_backend (__init__ SourceDb TargetDb) w
  = (Ok tt, emit "Корректировка завершена" w).
Proof.
  intros w.
  assert (get_table_names (connect SourceDb w) = []) as Hs by reflexivity.
  assert (get_table_names (connect TargetDb w) = []) as Ht by reflexivity.
  split; [exact Hs|]. split; [exact Ht|].
  exact (nothing_to_correct refusing_backend SourceDb TargetDb w Hs Ht).
Defined.

Lemma users_full_names_without_space : names_without_space users_full.
Proof.
  intros n st Hfound. unfold db_table, users_full, db_tables, find in Hfound.
  destruct (String.eqb (tbl_name users_table) n); [|discriminate].
  assert (st = users_table) as -> by congruence.
  split; repeat constructor.
Qed.

Lemma run_without_those_tables_changes_nothing_witness :
  let w := mkWorld users_full users_short [] [] in
  names_without_space (connect SourceDb w) /\
  (forall st, get_table (connect SourceDb w) "колонка" <> Ok (Some st)) /\
  (forall st, get_table (connect SourceDb w) "индекс" <> Ok (Some st)) /\
  wire (snd (correct_schema accepting_backend (__init__ SourceDb TargetDb) w)) = [] /\
  target_db (snd (correct_schema accepting_backend (__init__ SourceDb TargetDb) w))
    = users_short.
Proof.
  intros w.
  assert (names_without_space (connect SourceDb w)) as Hnames
    by exact users_full_names_without_space.
  assert (forall st, get_table (connect SourceDb w) "колонка" <> Ok (Some st)) as Hcol
    by (intros st; discriminate).
  assert (forall st, get_table (connect SourceDb w) "индекс" <> Ok (Some st)) as Hidx
    by (intros st; discriminate).
  destruct (run_without_those_tables_changes_nothing accepting_backend SourceDb
              TargetDb w Hnames Hcol Hidx) as (Hwire & Htarget & _).
  split; [exact Hnames|]. split; [exact Hcol|]. split; [exact Hidx|].
  split; [exact Hwire|exact Htarget].
Defined.

Lemma table_to_create_ends_the_run_witness :
  let w := mkWorld users_full orders_only [] [] in
  ("users" ∈ get_table_names (connect SourceDb w)) /\
  ("users" ∉ get_table_names (connect TargetDb w)) /\
  exists e w',
    correct_schema accepting_backend (__init__ SourceDb TargetDb) w = (Raise e, w').
Proof.
  intros w.
  assert ("users" ∈ get_table_names (connect SourceDb w)) as HS.
  { apply (bool_decide_unpack _). vm_compute. exact I. }
  assert ("users" ∉ get_table_names (connect TargetDb w)) as HT.
  { apply (bool_decide_unpack _). vm_compute. exact I. }
  split; [exact HS|]. split; [exact HT|].
  exact (table_to_create_ends_the_run accepting_backend SourceDb TargetDb "users"
           w HS HT).
Defined.


Lemma comparison_reports_no_difference_witness :
  compare_inspectors empty_database empty_database = Ok [] /\
  (db_tables users_full <> [] \/ db_tables users_short <> []) /\
  compare_inspectors users_full users_short = Raise (AttributeError "get_table").
Proof.
  assert (compare_inspectors empty_database empty_database = Ok []) as Hempty
    by reflexivity.
  assert (db_tables users_full <> [] \/ db_tables users_short <> []) as Htables
    by (left; discriminate).
  destruct (comparison_reports_no_difference empty_database empty_database)
    as [Hreturned _].
  destruct (Hreturned [] Hempty) as (_ & _ & _).
  split; [exact Hempty|]. split; [exact Htables|].
  exact (proj2 (comparison_reports_no_difference users_full users_short) Htables).
Defined.


Lemma index_statement_ignores_uniqueness_witness :
  idx_columns users_idx_name = idx_columns (mkIndex "idx_name" [int_column "name"] false) /\
  add_index_sql "users" "idx_name" users_idx_name
  = add_index_sql "users" "idx_name" (mkIndex "idx_name" [int_column "name"] false).
Proof.
  assert (idx_columns users_idx_name
          = idx_columns (mkIndex "idx_name" [int_column "name"] false)) as Hcolumns
    by reflexivity.
  split; [exact Hcolumns|].
  exact (index_statement_ignores_uniqueness "users" "idx_name" users_idx_name
           (mkIndex "idx_name" [int_column "name"] false) Hcolumns).
Defined.
